(** * simple_racing_arcade: the track model and the per-tick control model

    A shallow embedding of [src/main.py].  The game runs on two libraries
    that are not part of the repository: the [arcade] engine (window, sprites,
    the point-in-polygon primitive, the wrapper around the physics engine)
    and [pymunk] (rigid bodies).  The embedding keeps the repository's own
    code as it is written and treats the libraries as follows.

    - Python floats are idealised as real numbers ([R]); the integer
      coordinates of the track polygons stay in [Z] and are injected with
      [IZR] where the engine compares them with a float.
    - A physics body is a record of the four fields the game reads or
      writes: position, velocity, angle and the force accumulated for the
      next step.
    - The physics step and the point-in-polygon primitive are parameters of
      the game ([Section Game]); a ray-casting primitive is given separately
      for the statements about the configured track. *)

From Stdlib Require Import Reals Lra Lia List ZArith Bool String.
Import ListNotations.
Open Scope R_scope.

(** ** Numbers and vectors *)

Definition Rltb (a b : R) : bool := if Rlt_dec a b then true else false.
Definition Rleb (a b : R) : bool := if Rle_dec a b then true else false.
Definition Reqb (a b : R) : bool := if Req_dec_T a b then true else false.

(** [pymunk.Vec2d]: an immutable pair of floats. *)
Definition Vec2d : Type := (R * R)%type.

Definition vadd (u v : Vec2d) : Vec2d := (fst u + fst v, snd u + snd v).
Definition vscale (k : R) (v : Vec2d) : Vec2d := (k * fst v, k * snd v).

(** [Vec2d.length]: the Euclidean norm. *)
Definition vlength (v : Vec2d) : R := sqrt (fst v * fst v + snd v * snd v).

(** [Vec2d.rotated(angle_radians)]: a new vector, [v] turned counter-clockwise. *)
Definition rotated (v : Vec2d) (a : R) : Vec2d :=
  (fst v * cos a - snd v * sin a, fst v * sin a + snd v * cos a).

(** ** Constants of [main.py] *)

Definition SCREEN_WIDTH : Z := 1280.
Definition SCREEN_HEIGHT : Z := 720.

Definition CAR_MASS : R := 1.
Definition DAMPING : R := 5 / 100.
Definition ACCELERATE_FORCE : R := 1250.
Definition BREAK_FORCE : R := 1250.
Definition MAX_VELOCITY : R := 100000.
Definition CAR_TURN_SPEED : R := 75 / 1000.
Definition CAR_DRIFT : R := 35 / 100.

Definition Point : Type := (Z * Z)%type.

(** One entry of [TRACKS]: the dictionary with the keys
    ["track"], ["start"], ["outer_bound"] and ["inner_bound"]. *)
Record TrackConfig : Type := mkTrackConfig {
  cfg_track : string;
  cfg_start : Point;
  cfg_outer_bound : list Point;
  cfg_inner_bound : list Point
}.

Definition racing_track : TrackConfig := {|
  cfg_track := "assets/racing_track.png";
  cfg_start := (110, 360)%Z;
  cfg_outer_bound :=
    [ (50, 250); (290, 50); (975, 50); (1100, 175); (1100, 225); (885, 285);
      (885, 360); (1230, 400); (1230, 575); (1115, 670); (280, 670);
      (50, 500) ]%Z;
  cfg_inner_bound :=
    [ (200, 285); (355, 160); (880, 160); (640, 270); (640, 415); (800, 480);
      (1070, 490); (1040, 575); (350, 575); (200, 465) ]%Z
|}.

Definition TRACKS : list TrackConfig := [ racing_track ].

(** [TRACKS[0]]; the list is a non-empty constant. *)
Definition TRACKS_0 : TrackConfig := hd racing_track TRACKS.

(** ** The physics body (pymunk, through arcade's PymunkPhysicsEngine) *)

Record Body : Type := mkBody {
  position : Vec2d;
  velocity : Vec2d;
  angle : R;
  force : Vec2d
}.

(** Modelled from the spec: [physics_engine.apply_force(sprite, force)] of
    the engine, which is not in the repository; section 4.3 has the force
    act along the vehicle's local axes.  The force is given in the body's
    local frame and applied at the local origin, so it is added to the
    accumulated force turned by the body's angle, and adds no torque. *)
Definition apply_force (b : Body) (f : Vec2d) : Body :=
  mkBody (position b) (velocity b) (angle b) (vadd (force b) (rotated f (angle b))).

(** Modelled from the spec: [physics_engine.set_velocity(sprite, velocity)],
    the direct velocity write of section 6. *)
Definition set_velocity (b : Body) (v : Vec2d) : Body :=
  mkBody (position b) v (angle b) (force b).

(** Modelled from the spec: [body.angle += d], the angle read and write of
    section 6. *)
Definition add_angle (b : Body) (d : R) : Body :=
  mkBody (position b) (velocity b) (angle b + d) (force b).

(** Modelled from the spec: [physics_engine.add_sprite(sprite, ...)] on a
    fresh sprite (sections 3 and 4.3: new position, zero velocity, default
    orientation): a new body at the sprite's centre, at rest, not rotated,
    with no force pending. *)
Definition add_sprite (center : Vec2d) : Body :=
  mkBody center (0, 0) 0 (0, 0).

(** The unit vector along the body's local y axis, the axis along which
    [on_update] pushes the car when it accelerates. *)
Definition forward_dir (b : Body) : Vec2d := rotated (0, 1) (angle b).


(** ** The track mask (Pillow) *)

Definition RGBA : Type := (Z * Z * Z * Z)%type.

(** One call of [ImageDraw.polygon(xy, fill, outline, width)]. *)
Record PolygonCall : Type := mkPolygonCall {
  pc_xy : list Point;
  pc_fill : RGBA;
  pc_outline : RGBA;
  pc_width : Z
}.

(** The raster is kept as the canvas size given to [Image.new] and the
    polygons drawn on the empty canvas, in order. *)
Record Image : Type := mkImage {
  im_size : Z * Z;
  im_polygons : list PolygonCall
}.

Record Track : Type := mkTrack {
  outer_box : list Point;
  inner_box : list Point;
  start : Point;
  _alpha_track_mask : Image
}.

(** [Track._flip_y]. *)
Definition _flip_y (points : list Point) : list Point :=
  map (fun '(x, y) => (x, SCREEN_HEIGHT - y)%Z) points.

(** [Track.__init__]. *)
Definition Track__init__ (track : TrackConfig) : Track :=
  let outer_box := cfg_outer_bound track in
  let inner_box := cfg_inner_bound track in
  let image : Image :=
    mkImage (SCREEN_WIDTH, SCREEN_HEIGHT)
      [ mkPolygonCall (_flip_y outer_box) (128, 128, 128, 255)%Z (0, 0, 0, 255)%Z 3;
        mkPolygonCall (_flip_y inner_box) (0, 0, 0, 0)%Z (0, 0, 0, 255)%Z 3 ] in
  mkTrack outer_box inner_box (cfg_start track) image.

(** ** A ray-casting point-in-polygon primitive *)

(** Modelled from the spec: [arcade.is_point_in_polygon] is the engine's
    primitive and is not in the repository; section 4.1 describes it as a
    standard ray-casting test on the raw coordinate list.  An edge from [p1]
    to [p2] is crossed by the ray running from [(x, y)] towards larger
    abscissas when [y] lies in the half-open band [(min, max]] of the edge's
    ordinates and [x] is not right of the edge at height [y]. *)
Definition ray_crosses (x y : R) (p1 p2 : Point) : bool :=
  let p1x := IZR (fst p1) in
  let p1y := IZR (snd p1) in
  let p2x := IZR (fst p2) in
  let p2y := IZR (snd p2) in
  Rltb (Rmin p1y p2y) y
  && Rleb y (Rmax p1y p2y)
  && Rleb x (Rmax p1x p2x)
  && (Reqb p1x p2x || Rleb x ((y - p1y) * (p2x - p1x) / (p2y - p1y) + p1x)).

Fixpoint ray_walk (x y : R) (p1 : Point) (rest : list Point) (inside : bool) : bool :=
  match rest with
  | [] => inside
  | p2 :: rest' =>
      ray_walk x y p2 rest' (if ray_crosses x y p1 p2 then negb inside else inside)
  end.

(** Modelled from the spec: the even-odd rule over the closed polygon; the
    walk visits every edge once, the closing edge last. *)
Definition ray_cast (x y : R) (polygon : list Point) : bool :=
  match polygon with
  | [] => false
  | p0 :: tl => ray_walk x y p0 (tl ++ [p0]) false
  end.

(** ** The application state *)

(** [arcade.key]: the keys [on_key_press] and [on_key_release] tell apart. *)
Module key.
Inductive t : Type :=
  | Q | ESCAPE | R | UP | W | DOWN | S | LEFT | A | RIGHT | D | OTHER.

Definition eqb (k1 k2 : t) : bool :=
  match k1, k2 with
  | Q, Q | ESCAPE, ESCAPE | R, R | UP, UP | W, W | DOWN, DOWN | S, S
  | LEFT, LEFT | A, A | RIGHT, RIGHT | D, D | OTHER, OTHER => true
  | _, _ => false
  end.
End key.

(** [key in [...]]. *)
Definition key_in (k : key.t) (ks : list key.t) : bool := existsb (key.eqb k) ks.

(** The fields of [Racer] that the callbacks read or write, once [setup] has
    run ([main] calls it before the first callback): the track, the car's
    physics body (the sprite's centre is the body's position, the engine
    copies it back after every step), the four controls and the event flag. *)
Record Racer : Type := mkRacer {
  track : Track;
  car : Body;
  accelerate : bool;
  slowdown : bool;
  turn_left : bool;
  turn_right : bool;
  out_of_track : bool
}.

Definition set_car (s : Racer) (b : Body) : Racer :=
  mkRacer (track s) b (accelerate s) (slowdown s) (turn_left s) (turn_right s)
          (out_of_track s).
Definition set_accelerate (s : Racer) (v : bool) : Racer :=
  mkRacer (track s) (car s) v (slowdown s) (turn_left s) (turn_right s)
          (out_of_track s).
Definition set_slowdown (s : Racer) (v : bool) : Racer :=
  mkRacer (track s) (car s) (accelerate s) v (turn_left s) (turn_right s)
          (out_of_track s).
Definition set_turn_left (s : Racer) (v : bool) : Racer :=
  mkRacer (track s) (car s) (accelerate s) (slowdown s) v (turn_right s)
          (out_of_track s).
Definition set_turn_right (s : Racer) (v : bool) : Racer :=
  mkRacer (track s) (car s) (accelerate s) (slowdown s) (turn_left s) v
          (out_of_track s).
Definition set_out_of_track (s : Racer) (v : bool) : Racer :=
  mkRacer (track s) (car s) (accelerate s) (slowdown s) (turn_left s)
          (turn_right s) v.

(** A track point as the sprite's centre. *)
Definition center_of (p : Point) : Vec2d := (IZR (fst p), IZR (snd p)).

(** [Racer.setup]: a new track, a new car on the start point of [TRACKS[0]],
    a new physics engine holding the car, and the event flag cleared.  The
    four controls are not touched. *)
Definition setup (s : Racer) : Racer :=
  mkRacer (Track__init__ TRACKS_0)
          (add_sprite (center_of (cfg_start TRACKS_0)))
          (accelerate s) (slowdown s) (turn_left s) (turn_right s) false.

(** [Racer.on_key_press]; [None] is [exit(0)]. *)
Definition on_key_press (k : key.t) (s : Racer) : option Racer :=
  if key_in k [key.Q; key.ESCAPE] then None
  else
    let s1 := if key.eqb k key.R then setup s else s in
    let s2 :=
      if key_in k [key.UP; key.W] then set_accelerate s1 true
      else if key_in k [key.DOWN; key.S] then set_slowdown s1 true
      else s1 in
    let s3 :=
      if key_in k [key.LEFT; key.A] then set_turn_left s2 true
      else if key_in k [key.RIGHT; key.D] then set_turn_right s2 true
      else s2 in
    Some s3.

(** [Racer.on_key_release]. *)
Definition on_key_release (k : key.t) (s : Racer) : Racer :=
  let s1 := if key_in k [key.UP; key.W] then set_accelerate s false else s in
  let s2 := if key_in k [key.DOWN; key.S] then set_slowdown s1 false else s1 in
  if key_in k [key.LEFT; key.A] then set_turn_left s2 false
  else if key_in k [key.RIGHT; key.D] then set_turn_right s2 false
  else s2.

(** The two halves of the on-track branch of [on_update], on the body. *)

(** Lines 212-221: accelerate, else brake. *)
Definition drive (s : Racer) (b : Body) : Body :=
  if accelerate s then apply_force b (0, ACCELERATE_FORCE)
  else if slowdown s then
    if Rltb (snd (velocity b)) BREAK_FORCE then set_velocity b (0, 0)
    else apply_force b (0, - BREAK_FORCE)
  else b.

(** Lines 222-245: turn left, else turn right.  The angle is written first,
    then the velocity read back from the body is rotated and written. *)
Definition steer (s : Racer) (b : Body) : Body :=
  if turn_left s then
    let b1 := add_angle b CAR_TURN_SPEED in
    set_velocity b1
      (rotated (velocity b1) (CAR_TURN_SPEED - CAR_DRIFT * CAR_TURN_SPEED))
  else if turn_right s then
    let b1 := add_angle b (- CAR_TURN_SPEED) in
    set_velocity b1
      (rotated (velocity b1) (- (CAR_TURN_SPEED - CAR_DRIFT * CAR_TURN_SPEED)))
  else b.

(** What the window receives. *)
Inductive event : Type :=
  | KeyPress (k : key.t)
  | KeyRelease (k : key.t)
  | Update (delta_time : R).

Definition is_reset (e : event) : bool :=
  match e with KeyPress key.R => true | _ => false end.

Definition is_quit (e : event) : bool :=
  match e with KeyPress key.Q | KeyPress key.ESCAPE => true | _ => false end.

(** The control a key governs, as both handlers group the keys. *)
Definition held (k : key.t) (s : Racer) : bool :=
  if key_in k [key.UP; key.W] then accelerate s
  else if key_in k [key.DOWN; key.S] then slowdown s
  else if key_in k [key.LEFT; key.A] then turn_left s
  else if key_in k [key.RIGHT; key.D] then turn_right s
  else false.

Definition is_update (e : event) : bool :=
  match e with Update _ => true | _ => false end.

(** ** The overlay *)

(** [arcade.color]: the two colours [on_draw] chooses between. *)
Module color.
Inductive t : Type := RED | WHITE.
End color.

(** The arguments of [arcade.draw_text]. *)
Record Text : Type := mkText {
  text : string;
  start_x : Z;
  start_y : Z;
  text_color : color.t;
  bold : bool;
  font_name : string
}.

(** [Racer.on_draw], after the window is cleared and the scene drawn: the
    status line written over it. *)
Definition on_draw (s : Racer) : Text :=
  let '(oot_text, oot_color) :=
    if out_of_track s then ("On Track: No"%string, color.RED)
    else ("On Track: Yes"%string, color.WHITE) in
  mkText oot_text 1150 690 oot_color true "Roboto".

(** ** States and a physics step for the worked examples *)

(** The state [main] reaches before the first callback: the constructor's
    defaults, then [setup]. *)
Definition main : Racer :=
  mkRacer (Track__init__ TRACKS_0)
          (add_sprite (center_of (cfg_start TRACKS_0)))
          false false false false false.

Definition with_velocity (s : Racer) (v : Vec2d) : Racer :=
  set_car s (set_velocity (car s) v).

(** On the start point, brake held, moving up the screen at 100. *)
Definition braking_slowly : Racer :=
  set_slowdown (with_velocity main (0, 100)) true.

(** On the start point, all four controls held, moving up the screen. *)
Definition all_keys_down : Racer :=
  set_turn_right
    (set_turn_left (set_slowdown (set_accelerate (with_velocity main (0, 100)) true) true) true)
    true.

(** On the start point with the event flag already raised. *)
Definition flagged : Racer := set_out_of_track all_keys_down true.

(** Off the track by position: below and left of the outer polygon, flag
    still lowered, moving up the screen. *)
Definition off_the_map : Racer :=
  set_turn_left (set_accelerate (set_car main (mkBody (0, 0) (0, 100) 0 (0, 0))) true) true.

(** A tick, accelerate and turn-left pressed, a tick, accelerate released,
    a tick. *)
Definition sample_events : list event :=
  [ Update (1 / 60); KeyPress key.UP; KeyPress key.LEFT; Update (1 / 60);
    KeyRelease key.UP; Update (1 / 60) ].

(** The scenario of the spec's section 8: a 100 x 100 square with a 20 x 20
    square hole in its middle. *)
Definition square_track : TrackConfig := {|
  cfg_track := "";
  cfg_start := (10, 10)%Z;
  cfg_outer_bound := [ (0, 0); (100, 0); (100, 100); (0, 100) ]%Z;
  cfg_inner_bound := [ (40, 40); (60, 40); (60, 60); (40, 60) ]%Z
|}.

(** On the start point, only the accelerator held. *)
Definition accelerating : Racer := set_accelerate main true.



(** A press and a release of the accelerator and of turn-left, an unknown
    key, and no tick. *)
Definition key_events : list event :=
  [ KeyPress key.UP; KeyPress key.A; KeyRelease key.UP; KeyPress key.OTHER;
    KeyRelease key.A ].



(** Modelled from the spec: the physics collaborator's step for a body that
    touches nothing (section 4.3: damping, mass and the velocity cap are
    applied by the collaborator).  The position advances with the velocity,
    the velocity is damped, pushed by the accumulated force and capped, and
    the accumulated force is cleared.  The game itself takes the step as a
    parameter; this one instantiates it in the worked examples. *)
Definition free_step (dt : R) (b : Body) : Body :=
  let p := vadd (position b) (vscale dt (velocity b)) in
  let v := vadd (vscale (Rpower DAMPING dt) (velocity b))
                (vscale (dt / CAR_MASS) (force b)) in
  let v := if Rltb MAX_VELOCITY (vlength v)
           then vscale (MAX_VELOCITY / vlength v) v else v in
  mkBody p v (angle b) (0, 0).

Section Game.

(** [arcade.is_point_in_polygon(x, y, polygon_point_list)]. *)
Variable is_point_in_polygon : R -> R -> list Point -> bool.

(** [physics_engine.step()]: one step of the physics engine on the body. *)
Variable step : Body -> Body.

(** [Track.is_ontrack]. *)
Definition is_ontrack (t : Track) (x y : R) : bool :=
  is_point_in_polygon x y (outer_box t)
  && negb (is_point_in_polygon x y (inner_box t)).

(** The test of line 203: the car is off the track now, or was before. *)
Definition off_track (s : Racer) : bool :=
  negb (is_ontrack (track s) (fst (position (car s))) (snd (position (car s))))
  || out_of_track s.

(** [Racer.on_update] up to, and without, the physics step. *)
Definition control (s : Racer) : Racer :=
  if off_track s then set_out_of_track s true
  else set_car s (steer s (drive s (car s))).

(** [Racer.on_update]. *)
Definition on_update (delta_time : R) (s : Racer) : Racer :=
  let s' := control s in
  set_car s' (step (car s')).

Definition handle (e : event) (s : Racer) : option Racer :=
  match e with
  | KeyPress k => on_key_press k s
  | KeyRelease k => Some (on_key_release k s)
  | Update dt => Some (on_update dt s)
  end.

(** The event loop on a finite list of events; [None] once the process
    has exited. *)
Fixpoint run (evs : list event) (s : Racer) : option Racer :=
  match evs with
  | [] => Some s
  | e :: evs' =>
      match handle e s with
      | Some s' => run evs' s'
      | None => None
      end
  end.


(** ** Facts about numbers, vectors and the body *)

Lemma Rltb_true (a b : R) : a < b -> Rltb a b = true.
Proof. intros H. unfold Rltb. destruct (Rlt_dec a b); [reflexivity | contradiction]. Qed.

Lemma Rltb_false (a b : R) : ~ a < b -> Rltb a b = false.
Proof. intros H. unfold Rltb. destruct (Rlt_dec a b); [contradiction | reflexivity]. Qed.

Lemma Rleb_true (a b : R) : a <= b -> Rleb a b = true.
Proof. intros H. unfold Rleb. destruct (Rle_dec a b); [reflexivity | contradiction]. Qed.

Lemma Rleb_false (a b : R) : ~ a <= b -> Rleb a b = false.
Proof. intros H. unfold Rleb. destruct (Rle_dec a b); [contradiction | reflexivity]. Qed.

Lemma Reqb_true (a b : R) : a = b -> Reqb a b = true.
Proof. intros H. unfold Reqb. destruct (Req_dec_T a b); [reflexivity | contradiction]. Qed.

Lemma Reqb_false (a b : R) : a <> b -> Reqb a b = false.
Proof. intros H. unfold Reqb. destruct (Req_dec_T a b); [contradiction | reflexivity]. Qed.

Lemma vec_eq (a b c d : R) : a = c -> b = d -> (a, b) = (c, d).
Proof. intros -> ->. reflexivity. Qed.

Lemma rotated_zero (a : R) : rotated (0, 0) a = (0, 0).
Proof. unfold rotated; simpl. apply vec_eq; ring. Qed.

(** A rotation keeps the Euclidean norm. *)
Lemma vlength_rotated (v : Vec2d) (a : R) : vlength (rotated v a) = vlength v.
Proof.
  destruct v as [x y]. unfold vlength, rotated; simpl. f_equal.
  pose proof (sin2_cos2 a) as H. unfold Rsqr in H.
  replace ((x * cos a - y * sin a) * (x * cos a - y * sin a) +
           (x * sin a + y * cos a) * (x * sin a + y * cos a))
    with ((x * x + y * y) * (sin a * sin a + cos a * cos a)) by ring.
  rewrite H. ring.
Qed.

(** A force along the local y axis is a multiple of the forward direction. *)
Lemma rotated_local_y (k a : R) (b : Body) :
  a = angle b -> rotated (0, k) a = vscale k (forward_dir b).
Proof.
  intros ->. unfold forward_dir, rotated, vscale; simpl. apply vec_eq; ring.
Qed.


Lemma steer_force (s : Racer) (b : Body) : force (steer s b) = force b.
Proof. unfold steer. destruct (turn_left s), (turn_right s); reflexivity. Qed.

Lemma steer_position (s : Racer) (b : Body) : position (steer s b) = position b.
Proof. unfold steer. destruct (turn_left s), (turn_right s); reflexivity. Qed.

Lemma drive_angle (s : Racer) (b : Body) : angle (drive s b) = angle b.
Proof.
  unfold drive. destruct (accelerate s), (slowdown s); try reflexivity.
  destruct (Rltb _ _); reflexivity.
Qed.

(** The velocity after the steering half is a rotation of the velocity
    before it. *)
Lemma steer_velocity (s : Racer) (b : Body) :
  exists a : R, velocity (steer s b) = rotated (velocity b) a.
Proof.
  unfold steer. destruct (turn_left s); [ eexists; reflexivity | ].
  destruct (turn_right s); [ eexists; reflexivity | ].
  exists 0. destruct (velocity b) as [x y].
  unfold rotated; simpl. rewrite cos_0, sin_0. apply vec_eq; ring.
Qed.

(** ** Facts about the callbacks *)

Lemma off_track_of_flag (s : Racer) : out_of_track s = true -> off_track s = true.
Proof. intros H. unfold off_track. rewrite H. apply orb_true_r. Qed.

Lemma off_track_split (s : Racer) :
  off_track s = true <->
  is_ontrack (track s) (fst (position (car s))) (snd (position (car s))) = false
  \/ out_of_track s = true.
Proof.
  unfold off_track. rewrite orb_true_iff, negb_true_iff. tauto.
Qed.

Lemma control_off (s : Racer) : off_track s = true -> control s = set_out_of_track s true.
Proof. intros H. unfold control. rewrite H. reflexivity. Qed.

Lemma control_on (s : Racer) :
  off_track s = false -> control s = set_car s (steer s (drive s (car s))).
Proof. intros H. unfold control. rewrite H. reflexivity. Qed.

Lemma on_update_keeps_flag (dt : R) (s : Racer) :
  out_of_track s = true -> out_of_track (on_update dt s) = true.
Proof.
  intros H. unfold on_update. rewrite (control_off s (off_track_of_flag s H)).
  reflexivity.
Qed.

Lemma on_key_release_flag (k : key.t) (s : Racer) :
  out_of_track (on_key_release k s) = out_of_track s.
Proof. destruct k; reflexivity. Qed.

Lemma on_key_press_flag (k : key.t) (s s' : Racer) :
  is_reset (KeyPress k) = false -> on_key_press k s = Some s' ->
  out_of_track s' = out_of_track s.
Proof.
  destruct k; simpl; intros Hr H; try discriminate;
    injection H as <-; reflexivity.
Qed.

Lemma on_key_press_runs (k : key.t) (s : Racer) :
  is_quit (KeyPress k) = false -> exists s', on_key_press k s = Some s'.
Proof. destruct k; simpl; intros H; try discriminate; eexists; reflexivity. Qed.

Lemma handle_keeps_flag (e : event) (s s' : Racer) :
  is_reset e = false -> out_of_track s = true -> handle e s = Some s' ->
  out_of_track s' = true.
Proof.
  intros Hr Hs H. destruct e as [k | k | dt]; simpl in H.
  - rewrite (on_key_press_flag k s s' Hr H). exact Hs.
  - injection H as <-. rewrite on_key_release_flag. exact Hs.
  - injection H as <-. apply on_update_keeps_flag, Hs.
Qed.

Lemma handle_runs (e : event) (s : Racer) :
  is_quit e = false -> exists s', handle e s = Some s'.
Proof.
  destruct e as [k | k | dt]; intros H; simpl.
  - apply on_key_press_runs, H.
  - eexists; reflexivity.
  - eexists; reflexivity.
Qed.

Lemma run_keeps_flag (evs : list event) :
  forall s s', forallb (fun e => negb (is_reset e)) evs = true ->
    out_of_track s = true -> run evs s = Some s' -> out_of_track s' = true.
Proof.
  induction evs as [| e evs IH]; intros s s' Hn Hs H; simpl in *.
  - injection H as <-. exact Hs.
  - apply andb_true_iff in Hn as [He Hn]. apply negb_true_iff in He.
    destruct (handle e s) as [s1 |] eqn:E; [ | discriminate ].
    apply (IH s1 s' Hn); [ | exact H ].
    apply (handle_keeps_flag e s s1 He Hs E).
Qed.

Lemma run_runs (evs : list event) :
  forall s, existsb is_quit evs = false -> exists s', run evs s = Some s'.
Proof.
  induction evs as [| e evs IH]; intros s Hq; simpl in *.
  - eexists; reflexivity.
  - apply orb_false_iff in Hq as [He Hq].
    destruct (handle_runs e s He) as [s1 E]. rewrite E. apply IH, Hq.
Qed.

(** ** The containment test *)

(** C2: for every point, [is_ontrack] answers true exactly when the engine's
    primitive reports the point inside [outer_box] and not inside
    [inner_box]; the answer is computed from the stored coordinate lists, as
    they were given in the configuration, and does not depend on the mask. *)
Theorem is_ontrack_outer_and_not_inner (t : Track) (x y : R) :
  (is_ontrack t x y = true <->
   is_point_in_polygon x y (outer_box t) = true /\
   is_point_in_polygon x y (inner_box t) = false)
  /\ (forall (st : Point) (mask : Image),
        is_ontrack (mkTrack (outer_box t) (inner_box t) st mask) x y
        = is_ontrack t x y)
  /\ (forall cfg : TrackConfig,
        is_ontrack (Track__init__ cfg) x y
        = is_point_in_polygon x y (cfg_outer_bound cfg)
          && negb (is_point_in_polygon x y (cfg_inner_bound cfg))).
Proof.
  split; [ | split ].
  - unfold is_ontrack. rewrite andb_true_iff, negb_true_iff. tauto.
  - intros st mask. reflexivity.
  - intros cfg. reflexivity.
Qed.

(** ** The mask *)

Lemma flip_y_nth (points : list Point) :
  forall (i : nat) (x y : Z),
    nth_error points i = Some (x, y) ->
    nth_error (_flip_y points) i = Some (x, (SCREEN_HEIGHT - y)%Z).
Proof.
  induction points as [| [px py] points IH]; intros [| i] x y H; simpl in *;
    try discriminate.
  - injection H as -> ->. reflexivity.
  - apply IH, H.
Qed.

(** C6: the mask is drawn on a canvas of height [SCREEN_HEIGHT] from two
    polygons, the outer and the inner one, each with every point [(x, y)]
    replaced by [(x, SCREEN_HEIGHT - y)]; the track keeps the polygons as
    configured, and the containment test reads those. *)
Theorem flip_only_for_the_mask (cfg : TrackConfig) :
  let t := Track__init__ cfg in
  snd (im_size (_alpha_track_mask t)) = SCREEN_HEIGHT
  /\ map pc_xy (im_polygons (_alpha_track_mask t))
     = [ _flip_y (cfg_outer_bound cfg); _flip_y (cfg_inner_bound cfg) ]
  /\ (forall (points : list Point) (i : nat) (x y : Z),
        nth_error points i = Some (x, y) ->
        nth_error (_flip_y points) i = Some (x, (SCREEN_HEIGHT - y)%Z))
  /\ (forall points : list Point,
        List.length (_flip_y points) = List.length points)
  /\ outer_box t = cfg_outer_bound cfg
  /\ inner_box t = cfg_inner_bound cfg
  /\ (forall x y : R,
        is_ontrack t x y
        = is_point_in_polygon x y (cfg_outer_bound cfg)
          && negb (is_point_in_polygon x y (cfg_inner_bound cfg))).
Proof.
  cbv zeta. repeat split.
  - apply flip_y_nth.
  - intros points. unfold _flip_y. apply length_map.
Qed.

(** ** The tick *)


(** C3: on a state whose flag is raised, a tick leaves it raised whatever
    the four controls are, and so does every run of events without a press
    of the reset key: a run that ends ends with the flag raised, and a run
    without a quit key ends.  [setup] lowers the flag. *)
Theorem out_of_track_is_sticky (evs : list event) (s : Racer) :
  out_of_track s = true ->
  forallb (fun e => negb (is_reset e)) evs = true ->
  (forall dt : R, out_of_track (on_update dt s) = true)
  /\ (forall s' : Racer, run evs s = Some s' -> out_of_track s' = true)
  /\ (existsb is_quit evs = false ->
      exists s' : Racer, run evs s = Some s' /\ out_of_track s' = true)
  /\ out_of_track (setup s) = false
  /\ on_key_press key.R s = Some (setup s).
Proof.
  intros Hs Hn. repeat split.
  - intros dt. apply on_update_keeps_flag, Hs.
  - intros s' H. apply (run_keeps_flag evs s s' Hn Hs H).
  - intros Hq. destruct (run_runs evs s Hq) as [s' H].
    exists s'. split; [ exact H | apply (run_keeps_flag evs s s' Hn Hs H) ].
Qed.

(** C4: in a tick where the containment test fails on the car's position or
    the flag is already raised, the control half only raises the flag: the
    body keeps its force, velocity and angle, and the tick ends with the
    physics step on that untouched body. *)
Theorem off_track_tick (dt : R) (s : Racer) :
  is_ontrack (track s) (fst (position (car s))) (snd (position (car s))) = false
  \/ out_of_track s = true ->
  control s = set_out_of_track s true
  /\ out_of_track (on_update dt s) = true
  /\ car (control s) = car s
  /\ on_update dt s = set_car (set_out_of_track s true) (step (car s)).
Proof.
  intros H. apply off_track_split in H.
  unfold on_update. rewrite (control_off s H). repeat split.
Qed.

(** C5: in a tick on the track the steering half works on the body the
    accelerate/brake half leaves.  With turn-left held the angle grows by
    [CAR_TURN_SPEED] and the velocity is that body's velocity rotated by
    [CAR_TURN_SPEED * (1 - CAR_DRIFT)]; with turn-right held and turn-left
    not, the same with both angles negated.  The force of the first half is
    kept. *)
Theorem turn_tick (s : Racer) :
  off_track s = false ->
  let b := drive s (car s) in
  (turn_left s = true ->
     angle (car (control s)) = angle (car s) + CAR_TURN_SPEED
     /\ velocity (car (control s))
        = rotated (velocity b) (CAR_TURN_SPEED * (1 - CAR_DRIFT)))
  /\ (turn_left s = false -> turn_right s = true ->
     angle (car (control s)) = angle (car s) - CAR_TURN_SPEED
     /\ velocity (car (control s))
        = rotated (velocity b) (- (CAR_TURN_SPEED * (1 - CAR_DRIFT))))
  /\ force (car (control s)) = force b
  /\ position (car (control s)) = position (car s).
Proof.
  intros Hon b. rewrite (control_on s Hon). simpl car. fold b.
  assert (Ha : angle b = angle (car s)) by apply drive_angle.
  assert (Hr : CAR_TURN_SPEED - CAR_DRIFT * CAR_TURN_SPEED
               = CAR_TURN_SPEED * (1 - CAR_DRIFT)) by ring.
  split; [ | split; [ | split ] ].
  - intros Hl. unfold steer. rewrite Hl. simpl. rewrite Ha, Hr. split; reflexivity.
  - intros Hl Hrt. unfold steer. rewrite Hl, Hrt. simpl. rewrite Ha, Hr.
    split; reflexivity.
  - apply steer_force.
  - rewrite steer_position. unfold b, drive.
    destruct (accelerate s), (slowdown s); try reflexivity;
      destruct (Rltb _ _); reflexivity.
Qed.

(** C7: after [setup], from any state, the car is on the start point of its
    track, at rest, not rotated, and the flag is lowered; the reset key runs
    [setup]. *)
Theorem setup_resets (s : Racer) :
  position (car (setup s)) = center_of (start (track (setup s)))
  /\ start (track (setup s)) = (110, 360)%Z
  /\ velocity (car (setup s)) = (0, 0)
  /\ angle (car (setup s)) = 0
  /\ force (car (setup s)) = (0, 0)
  /\ out_of_track (setup s) = false
  /\ on_key_press key.R s = Some (setup s).
Proof. repeat split. Qed.

(** C9: with turn-left held the steering half does the same whether
    turn-right is held or not, namely the left turn alone, and so does the
    whole control half; with the accelerator held the first half does the
    same whether the brake is held or not, namely the forward push alone,
    and so does the whole control half. *)
Theorem one_effect_per_pair (s : Racer) (b : Body) :
  (turn_left s = true ->
     steer s b = steer (set_turn_right s false) b
     /\ steer s b
        = set_velocity (add_angle b CAR_TURN_SPEED)
            (rotated (velocity b) (CAR_TURN_SPEED - CAR_DRIFT * CAR_TURN_SPEED))
     /\ car (control s) = car (control (set_turn_right s false)))
  /\ (accelerate s = true ->
     drive s b = drive (set_slowdown s false) b
     /\ drive s b = apply_force b (0, ACCELERATE_FORCE)
     /\ car (control s) = car (control (set_slowdown s false))).
Proof.
  split.
  - intros Hl. repeat split.
    + unfold steer; simpl. rewrite Hl. reflexivity.
    + unfold steer. rewrite Hl. reflexivity.
    + unfold control, off_track; simpl.
      destruct (negb _ || out_of_track s); simpl; [ reflexivity | ].
      unfold steer; simpl. rewrite Hl. reflexivity.
  - intros Ha. repeat split.
    + unfold drive; simpl. rewrite Ha. reflexivity.
    + unfold drive. rewrite Ha. reflexivity.
    + unfold control, off_track; simpl.
      destruct (negb _ || out_of_track s); simpl; [ reflexivity | ].
      unfold drive; simpl. rewrite Ha. reflexivity.
Qed.

(** C10: the steering half writes a rotation of the velocity it reads, so
    the speed after it is the speed before it, and a body at rest stays at
    rest. *)
Theorem turning_keeps_speed (s : Racer) (b : Body) :
  (exists a : R, velocity (steer s b) = rotated (velocity b) a)
  /\ vlength (velocity (steer s b)) = vlength (velocity b)
  /\ velocity (steer s (set_velocity b (0, 0))) = (0, 0)
  /\ (forall (v : Vec2d) (a : R), vlength (rotated v a) = vlength v).
Proof.
  split; [ apply steer_velocity | ]. repeat split.
  - destruct (steer_velocity s b) as [a ->]. apply vlength_rotated.
  - destruct (steer_velocity s (set_velocity b (0, 0))) as [a ->].
    simpl. apply rotated_zero.
  - apply vlength_rotated.
Qed.

(** ** More about the tick *)

Lemma drive_position (s : Racer) (b : Body) : position (drive s b) = position b.
Proof.
  unfold drive. destruct (accelerate s), (slowdown s); try reflexivity;
    destruct (Rltb _ _); reflexivity.
Qed.

Lemma vlength_local_y_pos (k : R) : 0 <= k -> vlength (0, k) = k.
Proof.
  intros Hk. unfold vlength; simpl.
  replace (0 * 0 + k * k) with (k * k) by ring.
  apply sqrt_square, Hk.
Qed.

Lemma off_track_false_flag (s : Racer) : off_track s = false -> out_of_track s = false.
Proof. unfold off_track. intros H. apply orb_false_iff in H. tauto. Qed.

Lemma set_car_same (s : Racer) : set_car s (car s) = s.
Proof. destruct s; reflexivity. Qed.

Lemma raise_raised_flag (s : Racer) :
  out_of_track s = true -> set_out_of_track s true = s.
Proof. destruct s; simpl; intros ->; reflexivity. Qed.

Lemma tick_frame_track (dt : R) (s : Racer) : track (on_update dt s) = track s.
Proof. unfold on_update, control. destruct (off_track s); reflexivity. Qed.

(** X1: the flag a tick leaves is the outcome of the test made before the
    physics step: raised exactly when the containment test failed on the
    position the car had when the tick began, or the flag was raised already.
    Where the step moves the car plays no part. *)
Theorem flag_after_tick (dt : R) (s : Racer) :
  out_of_track (on_update dt s) = off_track s
  /\ (out_of_track (on_update dt s) = true <->
      is_ontrack (track s) (fst (position (car s))) (snd (position (car s))) = false
      \/ out_of_track s = true).
Proof.
  assert (H : out_of_track (on_update dt s) = off_track s).
  { unfold on_update, control. destruct (off_track s) eqn:E; simpl.
    - reflexivity.
    - apply off_track_false_flag, E. }
  split; [ exact H | ]. rewrite H. apply off_track_split.
Qed.

(** X2: a tick writes neither the track nor any of the four controls, its
    control half never moves the car, and the elapsed time handed to
    [on_update] has no influence on the result. *)
Theorem tick_frame (dt dt' : R) (s : Racer) :
  track (on_update dt s) = track s
  /\ accelerate (on_update dt s) = accelerate s
  /\ slowdown (on_update dt s) = slowdown s
  /\ turn_left (on_update dt s) = turn_left s
  /\ turn_right (on_update dt s) = turn_right s
  /\ position (car (control s)) = position (car s)
  /\ on_update dt s = on_update dt' s.
Proof.
  unfold on_update, control. destruct (off_track s); simpl; repeat split.
  rewrite steer_position. apply drive_position.
Qed.

(** X3: in a tick on the track with the accelerator held, brake held or
    not, the first half leaves the velocity alone and the force of the tick
    is [ACCELERATE_FORCE] along the body's forward axis. *)
Theorem accelerate_tick (s : Racer) :
  off_track s = false -> accelerate s = true ->
  velocity (drive s (car s)) = velocity (car s)
  /\ force (car (control s))
     = vadd (force (car s)) (vscale ACCELERATE_FORCE (forward_dir (car s)))
  /\ vlength (vscale ACCELERATE_FORCE (forward_dir (car s))) = ACCELERATE_FORCE.
Proof.
  intros Hon Ha. rewrite (control_on s Hon). simpl car. rewrite steer_force.
  assert (Hd : drive s (car s) = apply_force (car s) (0, ACCELERATE_FORCE)).
  { unfold drive. rewrite Ha. reflexivity. }
  rewrite Hd. simpl. rewrite (rotated_local_y _ _ (car s) eq_refl).
  repeat split.
  rewrite <- (rotated_local_y _ _ (car s) eq_refl), vlength_rotated.
  apply vlength_local_y_pos. unfold ACCELERATE_FORCE. lra.
Qed.

(** X4: in a tick on the track with no control held the control half
    changes nothing at all, so the tick is the physics step on the body as
    it was. *)
Theorem idle_tick (dt : R) (s : Racer) :
  off_track s = false ->
  accelerate s = false -> slowdown s = false ->
  turn_left s = false -> turn_right s = false ->
  control s = s /\ on_update dt s = set_car s (step (car s)).
Proof.
  intros Hon Ha Hb Hl Hr.
  assert (Hc : control s = s).
  { rewrite (control_on s Hon). unfold steer, drive.
    rewrite Ha, Hb, Hl, Hr. apply set_car_same. }
  split; [ exact Hc | ]. unfold on_update. rewrite Hc. reflexivity.
Qed.

(** X5: once the flag is raised, [n] ticks in a row are [n] physics steps on
    the body and nothing else: the controls held in the meantime have no
    effect on the car. *)
Theorem coasting (dt : R) (n : nat) :
  forall s : Racer,
    out_of_track s = true ->
    run (repeat (Update dt) n) s = Some (set_car s (Nat.iter n step (car s))).
Proof.
  induction n as [| n IH]; intros s Hs.
  - simpl. rewrite set_car_same. reflexivity.
  - simpl repeat. simpl run. unfold on_update.
    rewrite (control_off s (off_track_of_flag s Hs)), (raise_raised_flag s Hs).
    rewrite (IH (set_car s (step (car s))) Hs). simpl.
    rewrite <- Nat.iter_succ_r. reflexivity.
Qed.

(** ** More about the event loop *)

Lemma handle_none_iff (e : event) (s : Racer) :
  handle e s = None <-> is_quit e = true.
Proof.
  destruct e as [k | k | dt]; simpl; [ destruct k; simpl | | ];
    split; intros H; try discriminate; reflexivity.
Qed.

(** X6: the event loop exits exactly when one of the events is a press of
    Q or ESCAPE; no other key and no tick ends it. *)
Theorem run_exits_iff_quit (evs : list event) :
  forall s : Racer, run evs s = None <-> existsb is_quit evs = true.
Proof.
  induction evs as [| e evs IH]; intros s; simpl.
  - split; discriminate.
  - rewrite orb_true_iff. destruct (handle e s) as [s1 |] eqn:E.
    + rewrite IH. split; [ tauto | ]. intros [Hq | Hq]; [ | exact Hq ].
      apply (handle_none_iff e s) in Hq. congruence.
    + split; [ | reflexivity ]. intros _. left.
      apply (handle_none_iff e s), E.
Qed.

Lemma on_key_press_frame (k : key.t) (s s' : Racer) :
  is_reset (KeyPress k) = false -> on_key_press k s = Some s' ->
  car s' = car s /\ track s' = track s /\ out_of_track s' = out_of_track s.
Proof.
  destruct k; simpl; intros Hr H; try discriminate;
    injection H as <-; repeat split.
Qed.

Lemma on_key_release_frame (k : key.t) (s : Racer) :
  car (on_key_release k s) = car s
  /\ track (on_key_release k s) = track s
  /\ out_of_track (on_key_release k s) = out_of_track s.
Proof. destruct k; repeat split. Qed.

(** X7: key events alone never touch the car: over any run of presses and
    releases without a tick and without the reset key, the body, the track
    and the flag stay as they were. *)
Theorem keys_do_not_move_the_car (evs : list event) :
  forall s s' : Racer,
    forallb (fun e => negb (is_update e) && negb (is_reset e)) evs = true ->
    run evs s = Some s' ->
    car s' = car s /\ track s' = track s /\ out_of_track s' = out_of_track s.
Proof.
  induction evs as [| e evs IH]; intros s s' Hk H; simpl in *.
  - injection H as <-. repeat split.
  - apply andb_true_iff in Hk as [He Hk].
    apply andb_true_iff in He as [Hu Hr]. apply negb_true_iff in Hu, Hr.
    destruct (handle e s) as [s1 |] eqn:E; [ | discriminate ].
    destruct (IH s1 s' Hk H) as (Hc & Ht & Hf). rewrite Hc, Ht, Hf.
    destruct e as [k | k | dt]; simpl in E.
    + apply (on_key_press_frame k s s1 Hr E).
    + injection E as <-. apply on_key_release_frame.
    + discriminate.
Qed.

(** X8: the track is built from [TRACKS[0]] and stays that track: no event,
    the reset included, leaves the game on another one. *)
Theorem track_never_changes (evs : list event) :
  forall s s' : Racer,
    track s = Track__init__ TRACKS_0 ->
    run evs s = Some s' ->
    track s' = Track__init__ TRACKS_0.
Proof.
  induction evs as [| e evs IH]; intros s s' Ht H; simpl in *.
  - injection H as <-. exact Ht.
  - destruct (handle e s) as [s1 |] eqn:E; [ | discriminate ].
    apply (IH s1 s'); [ | exact H ].
    destruct e as [k | k | dt]; simpl in E.
    + destruct k; simpl in E; try discriminate; injection E as <-;
        first [ exact Ht | reflexivity ].
    + injection E as <-. destruct (on_key_release_frame k s) as (_ & -> & _).
      exact Ht.
    + injection E as <-. rewrite tick_frame_track. exact Ht.
Qed.

(** X9: the status line drawn after a tick reads "On Track: No", in red,
    exactly when the containment test failed on the position the car had
    before that tick's physics step or the flag was raised already;
    otherwise it reads "On Track: Yes", in white. *)
Theorem overlay_after_tick (dt : R) (s : Racer) :
  on_draw (on_update dt s)
  = if off_track s
    then mkText "On Track: No" 1150 690 color.RED true "Roboto"
    else mkText "On Track: Yes" 1150 690 color.WHITE true "Roboto".
Proof.
  unfold on_draw.
  assert (H : out_of_track (on_update dt s) = off_track s).
  { unfold on_update, control. destruct (off_track s) eqn:E; simpl.
    - reflexivity.
    - apply off_track_false_flag, E. }
  rewrite H. destruct (off_track s); reflexivity.
Qed.

(** ** The speed of a game in progress *)




















End Game.

(** ** The configured track, with the ray-casting primitive *)

Lemma ray_walk_step (x y : R) (p1 p2 : Point) (rest : list Point) (i c : bool) :
  ray_crosses x y p1 p2 = c ->
  ray_walk x y p1 (p2 :: rest) i = ray_walk x y p2 rest (if c then negb i else i).
Proof. intros <-. reflexivity. Qed.

(** Comparisons of numerals, through [Rmin] and [Rmax]. *)
Ltac numeral_order :=
  unfold Rmin, Rmax;
  repeat (match goal with
          | |- context [Rle_dec ?a ?b] => destruct (Rle_dec a b)
          end);
  lra.

Ltac decide_comparisons :=
  repeat match goal with
    | |- context [Rltb ?a ?b] =>
        first [ rewrite (Rltb_true a b) by numeral_order
              | rewrite (Rltb_false a b) by numeral_order ]
    | |- context [Rleb ?a ?b] =>
        first [ rewrite (Rleb_true a b) by numeral_order
              | rewrite (Rleb_false a b) by numeral_order ]
    | |- context [Reqb ?a ?b] =>
        first [ rewrite (Reqb_true a b) by numeral_order
              | rewrite (Reqb_false a b) by numeral_order ]
    end.

(** Runs [ray_cast] on numerals, one edge at a time. *)
Ltac run_ray_cast :=
  cbv [ray_cast app];
  repeat (erewrite ray_walk_step
            by (cbv [ray_crosses fst snd]; decide_comparisons;
                cbv [andb orb]; reflexivity);
          cbv [negb]);
  reflexivity.

Lemma start_inside_outer : ray_cast 110 360 (cfg_outer_bound racing_track) = true.
Proof. cbv [racing_track cfg_outer_bound]. run_ray_cast. Qed.

Lemma start_outside_inner : ray_cast 110 360 (cfg_inner_bound racing_track) = false.
Proof. cbv [racing_track cfg_inner_bound]. run_ray_cast. Qed.

Lemma start_on_racing_track :
  is_ontrack ray_cast (Track__init__ racing_track) 110 360 = true.
Proof.
  cbv [is_ontrack Track__init__ outer_box inner_box].
  rewrite start_inside_outer, start_outside_inner. reflexivity.
Qed.

(** A state on the start point of the configured track, flag lowered, takes
    the on-track branch. *)
Lemma on_track_at_start (s : Racer) :
  track s = Track__init__ racing_track -> position (car s) = (110, 360) ->
  out_of_track s = false -> off_track ray_cast s = false.
Proof.
  intros Ht Hp Hf. unfold off_track. rewrite Ht, Hp, Hf.
  cbv [fst snd]. rewrite start_on_racing_track. reflexivity.
Qed.

(** C8: every track of [TRACKS] has its start point on the track, by the
    ray-casting containment test. *)
Theorem start_points_on_track :
  Forall (fun cfg : TrackConfig =>
            is_ontrack ray_cast (Track__init__ cfg)
              (fst (center_of (cfg_start cfg))) (snd (center_of (cfg_start cfg)))
            = true)
         TRACKS.
Proof.
  unfold TRACKS. constructor; [ | constructor ].
  cbv [center_of cfg_start racing_track fst snd].
  exact start_on_racing_track.
Qed.

(** The ray-casting primitive on the scenario of section 8. *)
Example square_hole_is_off :
  is_ontrack ray_cast (Track__init__ square_track) 50 50 = false.
Proof.
  cbv [is_ontrack Track__init__ outer_box inner_box square_track
       cfg_outer_bound cfg_inner_bound].
  replace (ray_cast 50 50 [(40, 40); (60, 40); (60, 60); (40, 60)]%Z) with true
    by (symmetry; run_ray_cast).
  apply andb_false_r.
Qed.

Example square_band_is_on :
  is_ontrack ray_cast (Track__init__ square_track) 10 10 = true.
Proof.
  cbv [is_ontrack Track__init__ outer_box inner_box square_track
       cfg_outer_bound cfg_inner_bound].
  replace (ray_cast 10 10 [(0, 0); (100, 0); (100, 100); (0, 100)]%Z) with true
    by (symmetry; run_ray_cast).
  replace (ray_cast 10 10 [(40, 40); (60, 40); (60, 60); (40, 60)]%Z) with false
    by (symmetry; run_ray_cast).
  reflexivity.
Qed.

Example square_outside_is_off :
  is_ontrack ray_cast (Track__init__ square_track) 150 150 = false.
Proof.
  cbv [is_ontrack Track__init__ outer_box inner_box square_track
       cfg_outer_bound cfg_inner_bound].
  replace (ray_cast 150 150 [(0, 0); (100, 0); (100, 100); (0, 100)]%Z) with false
    by (symmetry; run_ray_cast).
  reflexivity.
Qed.

(** ** The step of the examples damps as the engine's does *)





(** ** The theorems at work on concrete states *)



Lemma origin_outside_outer : ray_cast 0 0 (cfg_outer_bound racing_track) = false.
Proof. cbv [racing_track cfg_outer_bound]. run_ray_cast. Qed.

Lemma out_of_track_is_sticky_witness :
  out_of_track flagged = true
  /\ forallb (fun e => negb (is_reset e)) sample_events = true
  /\ exists s' : Racer,
       run ray_cast (free_step (1 / 60)) sample_events flagged = Some s'
       /\ out_of_track s' = true.
Proof.
  split; [ reflexivity | ]. split; [ reflexivity | ].
  destruct (out_of_track_is_sticky ray_cast (free_step (1 / 60))
              sample_events flagged eq_refl eq_refl) as (_ & _ & Hrun & _).
  apply Hrun. reflexivity.
Defined.

Lemma off_track_tick_witness :
  is_ontrack ray_cast (track off_the_map)
    (fst (position (car off_the_map))) (snd (position (car off_the_map))) = false
  /\ out_of_track off_the_map = false
  /\ on_update ray_cast (free_step (1 / 60)) (1 / 60) off_the_map
     = set_car (set_out_of_track off_the_map true)
               (free_step (1 / 60) (car off_the_map)).
Proof.
  assert (Hout : is_ontrack ray_cast (track off_the_map)
                   (fst (position (car off_the_map)))
                   (snd (position (car off_the_map))) = false).
  { cbv [is_ontrack off_the_map main set_turn_left set_accelerate set_car
         track car position fst snd Track__init__ outer_box inner_box
         TRACKS_0 TRACKS hd].
    rewrite origin_outside_outer. reflexivity. }
  split; [ exact Hout | ]. split; [ reflexivity | ].
  apply (off_track_tick ray_cast (free_step (1 / 60)) (1 / 60) off_the_map
           (or_introl Hout)).
Defined.

Lemma turn_tick_witness :
  off_track ray_cast all_keys_down = false
  /\ turn_left all_keys_down = true
  /\ angle (car (control ray_cast all_keys_down))
     = angle (car all_keys_down) + CAR_TURN_SPEED
  /\ velocity (car (control ray_cast all_keys_down))
     = rotated (0, 100) (CAR_TURN_SPEED * (1 - CAR_DRIFT)).
Proof.
  assert (Hon : off_track ray_cast all_keys_down = false)
    by (apply on_track_at_start; reflexivity).
  split; [ exact Hon | ]. split; [ reflexivity | ].
  destruct (turn_tick ray_cast all_keys_down Hon) as [Hleft _].
  exact (Hleft eq_refl).
Defined.

Lemma one_effect_per_pair_witness :
  turn_left all_keys_down = true
  /\ turn_right all_keys_down = true
  /\ accelerate all_keys_down = true
  /\ slowdown all_keys_down = true
  /\ car (control ray_cast all_keys_down)
     = car (control ray_cast (set_turn_right all_keys_down false))
  /\ car (control ray_cast all_keys_down)
     = car (control ray_cast (set_slowdown all_keys_down false)).
Proof.
  destruct (one_effect_per_pair ray_cast all_keys_down (car all_keys_down))
    as [Hturn Hdrive].
  destruct (Hturn eq_refl) as (_ & _ & Ht).
  destruct (Hdrive eq_refl) as (_ & _ & Hd).
  repeat (split; [ reflexivity | ]). split; [ exact Ht | exact Hd ].
Defined.

(** ** More about the mask *)

Lemma flip_y_cons (p : Point) (points : list Point) :
  _flip_y (p :: points) = (fst p, (SCREEN_HEIGHT - snd p)%Z) :: _flip_y points.
Proof. destruct p; reflexivity. Qed.

Lemma flip_y_app (l1 l2 : list Point) :
  _flip_y (l1 ++ l2) = _flip_y l1 ++ _flip_y l2.
Proof. unfold _flip_y. apply map_app. Qed.

Lemma flip_y_flip_y (points : list Point) : _flip_y (_flip_y points) = points.
Proof.
  induction points as [| [x y] points IH]; [ reflexivity | ].
  rewrite !flip_y_cons, IH. cbv [fst snd].
  replace (SCREEN_HEIGHT - (SCREEN_HEIGHT - y))%Z with y by lia. reflexivity.
Qed.

(** X10: flipping twice gives the points back, so the configured polygons
    can be read off the mask: the two polygons drawn, flipped again, are the
    outer and the inner bound of the configuration. *)
Theorem flip_y_involutive (points : list Point) (cfg : TrackConfig) :
  _flip_y (_flip_y points) = points
  /\ map (fun c => _flip_y (pc_xy c))
         (im_polygons (_alpha_track_mask (Track__init__ cfg)))
     = [ cfg_outer_bound cfg; cfg_inner_bound cfg ].
Proof.
  split; [ apply flip_y_flip_y | ].
  simpl. rewrite !flip_y_flip_y. reflexivity.
Qed.

(** X11: the flip keeps the abscissas of every polygon, and a polygon whose
    ordinates lie between 0 and [SCREEN_HEIGHT] is flipped to one whose
    ordinates do. *)
Theorem flip_y_stays_on_canvas (points : list Point) :
  map fst (_flip_y points) = map fst points
  /\ (Forall (fun p => 0 <= snd p <= SCREEN_HEIGHT)%Z points ->
      Forall (fun p => 0 <= snd p <= SCREEN_HEIGHT)%Z (_flip_y points)).
Proof.
  split.
  - induction points as [| [x y] points IH]; [ reflexivity | ].
    rewrite flip_y_cons. cbn [map fst]. f_equal. exact IH.
  - induction 1 as [| [x y] points Hp _ IH]; [ constructor | ].
    rewrite flip_y_cons.
    constructor; [ cbv [fst snd] in *; lia | exact IH ].
Qed.

(** ** The ray-casting primitive under the flip *)

Lemma band_low_flip (h a b y : R) :
  a <> y -> b <> y ->
  Rltb (Rmin (h - a) (h - b)) (h - y) = Rleb y (Rmax a b).
Proof.
  intros Ha Hb. unfold Rltb, Rleb, Rmin, Rmax.
  destruct (Rle_dec (h - a) (h - b)), (Rle_dec a b);
    destruct (Rlt_dec _ _), (Rle_dec _ _); try reflexivity; exfalso; lra.
Qed.

Lemma band_high_flip (h a b y : R) :
  a <> y -> b <> y ->
  Rleb (h - y) (Rmax (h - a) (h - b)) = Rltb (Rmin a b) y.
Proof.
  intros Ha Hb. unfold Rltb, Rleb, Rmin, Rmax.
  destruct (Rle_dec (h - a) (h - b)), (Rle_dec a b);
    destruct (Rlt_dec _ _), (Rle_dec _ _); try reflexivity; exfalso; lra.
Qed.

Lemma empty_band (a y : R) : Rltb (Rmin a a) y && Rleb y (Rmax a a) = false.
Proof.
  unfold Rltb, Rleb, Rmin, Rmax.
  destruct (Rle_dec a a); destruct (Rlt_dec _ _), (Rle_dec _ _);
    try reflexivity; exfalso; lra.
Qed.

Lemma ray_crosses_flip (x y : R) (p1 p2 : Point) :
  IZR (snd p1) <> y -> IZR (snd p2) <> y ->
  ray_crosses x (IZR SCREEN_HEIGHT - y)
    (fst p1, (SCREEN_HEIGHT - snd p1)%Z) (fst p2, (SCREEN_HEIGHT - snd p2)%Z)
  = ray_crosses x y p1 p2.
Proof.
  intros H1 H2. unfold ray_crosses. cbv [fst snd].
  destruct p1 as [x1 y1], p2 as [x2 y2]. cbv [fst snd] in *.
  rewrite !minus_IZR.
  set (h := IZR SCREEN_HEIGHT). set (a := IZR y1) in *. set (b := IZR y2) in *.
  destruct (Req_dec a b) as [E | E].
  - rewrite E. rewrite (band_low_flip h b b y H2 H2), (band_high_flip h b b y H2 H2).
    rewrite (andb_comm (Rleb y (Rmax b b))), !empty_band. reflexivity.
  - rewrite (band_low_flip h a b y H1 H2), (band_high_flip h a b y H1 H2).
    rewrite (andb_comm (Rleb y (Rmax a b))).
    replace ((h - y - (h - a)) * (IZR x2 - IZR x1) / (h - b - (h - a)) + IZR x1)
      with ((y - a) * (IZR x2 - IZR x1) / (b - a) + IZR x1)
      by (field; split; lra).
    reflexivity.
Qed.

Lemma ray_walk_flip (x y : R) (rest : list Point) :
  forall (p1 : Point) (i : bool),
    Forall (fun p => IZR (snd p) <> y) (p1 :: rest) ->
    ray_walk x (IZR SCREEN_HEIGHT - y)
      (fst p1, (SCREEN_HEIGHT - snd p1)%Z) (_flip_y rest) i
    = ray_walk x y p1 rest i.
Proof.
  induction rest as [| p2 rest IH]; intros p1 i H; [ reflexivity | ].
  inversion H as [| ? ? H1 H']; subst. inversion H' as [| ? ? H2 _]; subst.
  rewrite flip_y_cons.
  rewrite (ray_walk_step _ _ _ _ _ _ _ (ray_crosses_flip x y p1 p2 H1 H2)).
  rewrite (ray_walk_step x y p1 p2 rest i _ eq_refl). apply IH, H'.
Qed.

Lemma ray_cast_flip (x y : R) (polygon : list Point) :
  Forall (fun p => IZR (snd p) <> y) polygon ->
  ray_cast x (IZR SCREEN_HEIGHT - y) (_flip_y polygon) = ray_cast x y polygon.
Proof.
  destruct polygon as [| [x0 y0] tl]; intros H; [ reflexivity | ].
  rewrite flip_y_cons. unfold ray_cast.
  change [(fst (x0, y0), (SCREEN_HEIGHT - snd (x0, y0))%Z)]
    with (_flip_y [(x0, y0)]).
  rewrite <- flip_y_app. apply ray_walk_flip.
  inversion H as [| ? ? H0 Htl]; subst.
  constructor; [ exact H0 | ]. apply Forall_app. split; [ exact Htl | ].
  constructor; [ exact H0 | constructor ].
Qed.

(** X12: the polygons drawn on the mask are the mirror image of the region
    the containment test accepts.  For a point that is level with no vertex,
    the ray-casting test on the two flipped polygons at the mirrored height
    [SCREEN_HEIGHT - y] gives the answer [is_ontrack] gives at height [y]. *)
Theorem mask_mirrors_track (cfg : TrackConfig) (x y : R) :
  Forall (fun p => IZR (snd p) <> y) (cfg_outer_bound cfg) ->
  Forall (fun p => IZR (snd p) <> y) (cfg_inner_bound cfg) ->
  ray_cast x (IZR SCREEN_HEIGHT - y) (_flip_y (cfg_outer_bound cfg))
  && negb (ray_cast x (IZR SCREEN_HEIGHT - y) (_flip_y (cfg_inner_bound cfg)))
  = is_ontrack ray_cast (Track__init__ cfg) x y.
Proof.
  intros Ho Hi. unfold is_ontrack; simpl.
  rewrite (ray_cast_flip x y _ Ho), (ray_cast_flip x y _ Hi). reflexivity.
Qed.

(** ** The ray-casting primitive outside the bounding box *)

Lemma ray_walk_no_crossing (x y : R) (P : Point -> Prop) :
  (forall p1 p2, P p1 -> P p2 -> ray_crosses x y p1 p2 = false) ->
  forall (rest : list Point) (p1 : Point) (i : bool),
    Forall P (p1 :: rest) -> ray_walk x y p1 rest i = i.
Proof.
  intros HP. induction rest as [| p2 rest IH]; intros p1 i H; [ reflexivity | ].
  inversion H as [| ? ? H1 H']; subst. inversion H' as [| ? ? H2 _]; subst.
  simpl. rewrite (HP p1 p2 H1 H2). apply IH, H'.
Qed.

Lemma ray_cast_no_crossing (x y : R) (P : Point -> Prop) (polygon : list Point) :
  (forall p1 p2, P p1 -> P p2 -> ray_crosses x y p1 p2 = false) ->
  Forall P polygon -> ray_cast x y polygon = false.
Proof.
  intros HP H. destruct polygon as [| p0 tl]; [ reflexivity | ].
  unfold ray_cast. apply (ray_walk_no_crossing x y P HP).
  inversion H as [| ? ? H0 Htl]; subst.
  constructor; [ exact H0 | ]. apply Forall_app. split; [ exact Htl | ].
  constructor; [ exact H0 | constructor ].
Qed.

Lemma no_crossing_above (x y : R) (p1 p2 : Point) :
  IZR (snd p1) < y -> IZR (snd p2) < y -> ray_crosses x y p1 p2 = false.
Proof.
  intros H1 H2. unfold ray_crosses.
  rewrite (Rleb_false y (Rmax (IZR (snd p1)) (IZR (snd p2)))).
  - rewrite andb_false_r. reflexivity.
  - unfold Rmax. destruct (Rle_dec _ _); lra.
Qed.

Lemma no_crossing_below (x y : R) (p1 p2 : Point) :
  y <= IZR (snd p1) -> y <= IZR (snd p2) -> ray_crosses x y p1 p2 = false.
Proof.
  intros H1 H2. unfold ray_crosses.
  rewrite (Rltb_false (Rmin (IZR (snd p1)) (IZR (snd p2))) y).
  - reflexivity.
  - unfold Rmin. destruct (Rle_dec _ _); lra.
Qed.

Lemma no_crossing_right (x y : R) (p1 p2 : Point) :
  IZR (fst p1) < x -> IZR (fst p2) < x -> ray_crosses x y p1 p2 = false.
Proof.
  intros H1 H2. unfold ray_crosses.
  rewrite (Rleb_false x (Rmax (IZR (fst p1)) (IZR (fst p2)))).
  - rewrite andb_false_r. reflexivity.
  - unfold Rmax. destruct (Rle_dec _ _); lra.
Qed.

(** X13: with the ray-casting primitive, a point above every vertex of the
    outer polygon, or level with or below every one of them, or right of
    every one of them, is off the track, whatever the inner polygon is. *)
Theorem outside_the_box_is_off_track (t : Track) (x y : R) :
  Forall (fun p => IZR (snd p) < y) (outer_box t)
  \/ Forall (fun p => y <= IZR (snd p)) (outer_box t)
  \/ Forall (fun p => IZR (fst p) < x) (outer_box t) ->
  is_ontrack ray_cast t x y = false.
Proof.
  intros H. unfold is_ontrack.
  assert (E : ray_cast x y (outer_box t) = false).
  { destruct H as [H | [H | H]].
    - apply (ray_cast_no_crossing x y _ _ (no_crossing_above x y) H).
    - apply (ray_cast_no_crossing x y _ _ (no_crossing_below x y) H).
    - apply (ray_cast_no_crossing x y _ _ (no_crossing_right x y) H). }
  rewrite E. reflexivity.
Qed.

(** ** Steering back and forth *)

Lemma rotated_rotated (v : Vec2d) (a b : R) :
  rotated (rotated v a) b = rotated v (a + b).
Proof.
  destruct v as [x y]. unfold rotated; simpl.
  rewrite cos_plus, sin_plus. apply vec_eq; ring.
Qed.

Lemma rotated_0 (v : Vec2d) : rotated v 0 = v.
Proof.
  destruct v as [x y]. unfold rotated; simpl.
  rewrite cos_0, sin_0. apply vec_eq; ring.
Qed.

Lemma body_eq (p : Vec2d) (v v' : Vec2d) (a a' : R) (f : Vec2d) :
  v = v' -> a = a' -> mkBody p v a f = mkBody p v' a' f.
Proof. intros -> ->. reflexivity. Qed.

(** X14: the steering half of a left-turn tick followed by that of a
    right-turn tick, or the other way round, gives the body back: the angle
    and the velocity return to what they were, position and force are not
    touched. *)
Theorem left_then_right_restores (l r : Racer) (b : Body) :
  turn_left l = true -> turn_left r = false -> turn_right r = true ->
  steer r (steer l b) = b /\ steer l (steer r b) = b.
Proof.
  intros Hl Hr Hrr. unfold steer. rewrite Hl, Hr, Hrr.
  destruct b as [p v a f]. unfold set_velocity, add_angle; simpl.
  split; apply body_eq; try ring.
  - rewrite rotated_rotated.
    replace (CAR_TURN_SPEED - CAR_DRIFT * CAR_TURN_SPEED
             + - (CAR_TURN_SPEED - CAR_DRIFT * CAR_TURN_SPEED)) with 0 by ring.
    apply rotated_0.
  - rewrite rotated_rotated.
    replace (- (CAR_TURN_SPEED - CAR_DRIFT * CAR_TURN_SPEED)
             + (CAR_TURN_SPEED - CAR_DRIFT * CAR_TURN_SPEED)) with 0 by ring.
    apply rotated_0.
Qed.

(** X18: steering adds up: after the steering halves of [n] left-turn
    ticks the angle has grown by [n] times [CAR_TURN_SPEED] and the velocity
    is rotated by [n] times [CAR_TURN_SPEED * (1 - CAR_DRIFT)], so the
    heading runs ahead of the direction of travel by [n] times
    [CAR_DRIFT * CAR_TURN_SPEED]; position and force are not touched. *)
Theorem steering_accumulates (l : Racer) (n : nat) (b : Body) :
  turn_left l = true ->
  angle (Nat.iter n (steer l) b) = angle b + INR n * CAR_TURN_SPEED
  /\ velocity (Nat.iter n (steer l) b)
     = rotated (velocity b) (INR n * (CAR_TURN_SPEED * (1 - CAR_DRIFT)))
  /\ angle (Nat.iter n (steer l) b) - angle b
     - INR n * (CAR_TURN_SPEED * (1 - CAR_DRIFT))
     = INR n * (CAR_DRIFT * CAR_TURN_SPEED)
  /\ position (Nat.iter n (steer l) b) = position b
  /\ force (Nat.iter n (steer l) b) = force b.
Proof.
  intros Hl.
  assert (Hstep : forall c : Body,
             steer l c
             = set_velocity (add_angle c CAR_TURN_SPEED)
                 (rotated (velocity c)
                    (CAR_TURN_SPEED - CAR_DRIFT * CAR_TURN_SPEED)))
    by (intros c; unfold steer; rewrite Hl; reflexivity).
  assert (Ha : angle (Nat.iter n (steer l) b) = angle b + INR n * CAR_TURN_SPEED).
  { induction n as [| n IH].
    - simpl. ring.
    - rewrite S_INR, Nat.iter_succ, Hstep.
      cbn [angle set_velocity add_angle]. rewrite IH. ring. }
  split; [ exact Ha | ]. split; [ | split; [ rewrite Ha; ring | ] ].
  - clear Ha. induction n as [| n IH].
    + simpl. rewrite Rmult_0_l, rotated_0. reflexivity.
    + rewrite S_INR, Nat.iter_succ, Hstep.
      cbn [velocity set_velocity add_angle].
      rewrite IH, rotated_rotated. f_equal. ring.
  - clear Ha. induction n as [| n [IHp IHf]]; [ split; reflexivity | ].
    rewrite Nat.iter_succ, steer_position, steer_force.
    split; assumption.
Qed.

(** ** The keys *)

(** X15: a key other than Q, ESCAPE and R whose control is not held is
    undone by its release: the press raises the control the key governs (if
    it governs one) and the release gives the state back.  A release always
    leaves the key's control lowered. *)
Theorem press_then_release (k : key.t) (s : Racer) :
  is_quit (KeyPress k) = false -> is_reset (KeyPress k) = false ->
  held k s = false ->
  (exists s' : Racer,
     on_key_press k s = Some s'
     /\ held k s' = key_in k [key.UP; key.W; key.DOWN; key.S;
                              key.LEFT; key.A; key.RIGHT; key.D]
     /\ on_key_release k s' = s)
  /\ held k (on_key_release k s) = false.
Proof.
  intros Hq Hr Hh. destruct s as [t c a b l r f].
  destruct k; lazy in Hq, Hr, Hh; try discriminate; subst; lazy;
    (split; [ eexists; repeat split | reflexivity ]).
Qed.

(** X16: W, S, A and D are handled exactly as UP, DOWN, LEFT and RIGHT, on
    press and on release. *)
Theorem letter_keys_are_arrow_keys (s : Racer) :
  on_key_press key.W s = on_key_press key.UP s
  /\ on_key_press key.S s = on_key_press key.DOWN s
  /\ on_key_press key.A s = on_key_press key.LEFT s
  /\ on_key_press key.D s = on_key_press key.RIGHT s
  /\ on_key_release key.W s = on_key_release key.UP s
  /\ on_key_release key.S s = on_key_release key.DOWN s
  /\ on_key_release key.A s = on_key_release key.LEFT s
  /\ on_key_release key.D s = on_key_release key.RIGHT s.
Proof. repeat split. Qed.

(** X17: the reset does not release the keys: the four controls are after
    [setup] what they were before, in every state; so with the accelerator
    held the first tick after a reset already pushes the car forward from
    the start point (the containment test being the ray-casting one). *)
Theorem reset_keeps_keys_held (s : Racer) :
  accelerate (setup s) = accelerate s
  /\ slowdown (setup s) = slowdown s
  /\ turn_left (setup s) = turn_left s
  /\ turn_right (setup s) = turn_right s
  /\ (accelerate s = true ->
      position (car (control ray_cast (setup s))) = (110, 360)
      /\ force (car (control ray_cast (setup s))) = (0, ACCELERATE_FORCE)).
Proof.
  repeat (split; [ reflexivity | ]). intros Ha.
  assert (Hon : off_track ray_cast (setup s) = false)
    by (apply on_track_at_start; reflexivity).
  rewrite (control_on ray_cast _ Hon). simpl car.
  rewrite steer_force, steer_position, drive_position.
  split; [ reflexivity | ].
  unfold drive; simpl. rewrite Ha. simpl.
  unfold vadd, rotated; simpl. rewrite cos_0, sin_0. apply vec_eq; ring.
Qed.

(** ** The further theorems at work on concrete states *)

Ltac all_points tac :=
  repeat (apply Forall_cons; [ tac | ]); apply Forall_nil.

Lemma accelerate_tick_witness :
  off_track ray_cast accelerating = false
  /\ accelerate accelerating = true
  /\ force (car (control ray_cast accelerating))
     = vadd (force (car accelerating))
            (vscale ACCELERATE_FORCE (forward_dir (car accelerating))).
Proof.
  assert (Hon : off_track ray_cast accelerating = false)
    by (apply on_track_at_start; reflexivity).
  split; [ exact Hon | ]. split; [ reflexivity | ].
  destruct (accelerate_tick ray_cast accelerating Hon eq_refl) as (_ & Hf & _).
  exact Hf.
Defined.

Lemma idle_tick_witness :
  off_track ray_cast main = false
  /\ control ray_cast main = main
  /\ on_update ray_cast (free_step (1 / 60)) (1 / 60) main
     = set_car main (free_step (1 / 60) (car main)).
Proof.
  assert (Hon : off_track ray_cast main = false)
    by (apply on_track_at_start; reflexivity).
  split; [ exact Hon | ].
  apply (idle_tick ray_cast (free_step (1 / 60)) (1 / 60) main Hon
           eq_refl eq_refl eq_refl eq_refl).
Defined.

Lemma coasting_witness :
  out_of_track flagged = true
  /\ run ray_cast (free_step (1 / 60)) (repeat (Update (1 / 60)) 3) flagged
     = Some (set_car flagged (Nat.iter 3 (free_step (1 / 60)) (car flagged))).
Proof.
  split; [ reflexivity | ].
  apply (coasting ray_cast (free_step (1 / 60)) (1 / 60) 3 flagged eq_refl).
Defined.

Lemma keys_do_not_move_the_car_witness :
  forallb (fun e => negb (is_update e) && negb (is_reset e)) key_events = true
  /\ exists s' : Racer,
       run ray_cast (free_step (1 / 60)) key_events braking_slowly = Some s'
       /\ car s' = car braking_slowly
       /\ track s' = track braking_slowly
       /\ out_of_track s' = out_of_track braking_slowly.
Proof.
  split; [ reflexivity | ]. eexists. split; [ reflexivity | ].
  apply (keys_do_not_move_the_car ray_cast (free_step (1 / 60)) key_events
           braking_slowly _ eq_refl eq_refl).
Defined.

Lemma track_never_changes_witness :
  track main = Track__init__ TRACKS_0
  /\ exists s' : Racer,
       run ray_cast (free_step (1 / 60)) sample_events main = Some s'
       /\ track s' = Track__init__ TRACKS_0.
Proof.
  split; [ reflexivity | ]. eexists. split; [ reflexivity | ].
  apply (track_never_changes ray_cast (free_step (1 / 60)) sample_events
           main _ eq_refl eq_refl).
Defined.

Lemma flip_y_stays_on_canvas_witness :
  Forall (fun p => 0 <= snd p <= SCREEN_HEIGHT)%Z (cfg_outer_bound racing_track)
  /\ Forall (fun p => 0 <= snd p <= SCREEN_HEIGHT)%Z
            (_flip_y (cfg_outer_bound racing_track)).
Proof.
  assert (H : Forall (fun p => 0 <= snd p <= SCREEN_HEIGHT)%Z
                     (cfg_outer_bound racing_track)).
  { cbv [racing_track cfg_outer_bound].
    all_points ltac:(cbv [snd SCREEN_HEIGHT]; lia). }
  split; [ exact H | ].
  apply (proj2 (flip_y_stays_on_canvas (cfg_outer_bound racing_track)) H).
Defined.

Lemma mask_mirrors_track_witness :
  Forall (fun p => IZR (snd p) <> 300) (cfg_outer_bound racing_track)
  /\ Forall (fun p => IZR (snd p) <> 300) (cfg_inner_bound racing_track)
  /\ ray_cast 110 (IZR SCREEN_HEIGHT - 300)
       (_flip_y (cfg_outer_bound racing_track))
     && negb (ray_cast 110 (IZR SCREEN_HEIGHT - 300)
                (_flip_y (cfg_inner_bound racing_track)))
     = is_ontrack ray_cast (Track__init__ racing_track) 110 300.
Proof.
  assert (Ho : Forall (fun p => IZR (snd p) <> 300) (cfg_outer_bound racing_track)).
  { cbv [racing_track cfg_outer_bound].
    all_points ltac:(cbv [snd]; intros E; lra). }
  assert (Hi : Forall (fun p => IZR (snd p) <> 300) (cfg_inner_bound racing_track)).
  { cbv [racing_track cfg_inner_bound].
    all_points ltac:(cbv [snd]; intros E; lra). }
  split; [ exact Ho | ]. split; [ exact Hi | ].
  apply (mask_mirrors_track racing_track 110 300 Ho Hi).
Defined.

Lemma outside_the_box_is_off_track_witness :
  Forall (fun p => 0 <= IZR (snd p)) (outer_box (Track__init__ racing_track))
  /\ is_ontrack ray_cast (Track__init__ racing_track) 0 0 = false.
Proof.
  assert (H : Forall (fun p => 0 <= IZR (snd p))
                     (outer_box (Track__init__ racing_track))).
  { cbv [Track__init__ outer_box racing_track cfg_outer_bound].
    all_points ltac:(cbv [snd]; lra). }
  split; [ exact H | ].
  apply (outside_the_box_is_off_track (Track__init__ racing_track) 0 0).
  right. left. exact H.
Defined.

Lemma left_then_right_restores_witness :
  turn_left (set_turn_left main true) = true
  /\ turn_left (set_turn_right main true) = false
  /\ turn_right (set_turn_right main true) = true
  /\ steer (set_turn_right main true)
       (steer (set_turn_left main true) (car braking_slowly))
     = car braking_slowly.
Proof.
  repeat (split; [ reflexivity | ]).
  destruct (left_then_right_restores (set_turn_left main true)
              (set_turn_right main true) (car braking_slowly)
              eq_refl eq_refl eq_refl) as [H _].
  exact H.
Defined.

Lemma press_then_release_witness :
  is_quit (KeyPress key.UP) = false
  /\ is_reset (KeyPress key.UP) = false
  /\ held key.UP main = false
  /\ exists s' : Racer,
       on_key_press key.UP main = Some s'
       /\ held key.UP s' = true
       /\ on_key_release key.UP s' = main.
Proof.
  repeat (split; [ reflexivity | ]).
  destruct (press_then_release key.UP main eq_refl eq_refl eq_refl) as [H _].
  exact H.
Defined.

Lemma reset_keeps_keys_held_witness :
  accelerate all_keys_down = true
  /\ slowdown (setup all_keys_down) = true
  /\ force (car (control ray_cast (setup all_keys_down))) = (0, ACCELERATE_FORCE).
Proof.
  split; [ reflexivity | ]. split; [ reflexivity | ].
  destruct (reset_keeps_keys_held all_keys_down) as (_ & _ & _ & _ & H).
  destruct (H eq_refl) as [_ Hf]. exact Hf.
Defined.

Lemma steering_accumulates_witness :
  turn_left all_keys_down = true
  /\ angle (Nat.iter 3 (steer all_keys_down) (car all_keys_down))
     = angle (car all_keys_down) + INR 3 * CAR_TURN_SPEED.
Proof.
  split; [ reflexivity | ].
  destruct (steering_accumulates all_keys_down 3 (car all_keys_down) eq_refl)
    as [H _].
  exact H.
Defined.
